(** * script_remote.py: the rising-post notifier

    A shallow embedding of [script_remote.py]: the module body that reads
    the webhook address from the process environment, [main],
    [get_rising_submissions] and [post_message].

    Python values are the values [json.loads] builds; a Python [str] is kept
    as the bytes of its UTF-8 encoding.  The interpreter's effects are explicit:
    a computation threads the list of events it has performed and either
    returns a value or raises. *)

From Stdlib Require Import String Ascii List ZArith NArith Bool Lia.
From Stdlib Require Import DecimalString DecimalZ DecimalN.
Import ListNotations.

Local Open Scope string_scope.
Local Open Scope Z_scope.

(** ** Values *)

(** What [response.json()] can hold.  A [dict] keeps its items in insertion
    order with one binding per key; a [float] is kept as the literal it was
    read from. *)
#[warnings="-register-all"]
Inductive pyval : Type :=
| PNone
| PBool (b : bool)
| PInt (z : Z)
| PFloat (lit : string)
| PStr (s : string)
| PList (elems : list pyval)
| PDict (items : list (string * pyval)).

Inductive exn : Type :=
| KeyError (key : string)
| TypeError
| ValueError
| JSONDecodeError
| RequestException.

Inductive outcome (A : Type) : Type :=
| Returned (a : A)
| Raised (e : exn).

Arguments Returned {A} a.
Arguments Raised {A} e.

(** ** Strings *)

Definition LF : ascii := ascii_of_nat 10.
Definition comma : ascii := ascii_of_nat 44.

Definition bytes (l : list nat) : string :=
  string_of_list_ascii (map ascii_of_nat l).

Fixpoint contains_char (c : ascii) (s : string) : bool :=
  match s with
  | EmptyString => false
  | String a rest => Ascii.eqb a c || contains_char c rest
  end.

Fixpoint remove_char (c : ascii) (s : string) : string :=
  match s with
  | EmptyString => EmptyString
  | String a rest =>
      if Ascii.eqb a c then remove_char c rest
      else String a (remove_char c rest)
  end.

(** The pieces of [s] between occurrences of [sep]; [split_on LF] gives the
    lines of a text. *)
Fixpoint split_on (sep : ascii) (s : string) : list string :=
  match s with
  | EmptyString => [EmptyString]
  | String a rest =>
      if Ascii.eqb a sep then EmptyString :: split_on sep rest
      else match split_on sep rest with
           | piece :: pieces => String a piece :: pieces
           | [] => [String a EmptyString]
           end
  end.

Definition lines (s : string) : list string := split_on LF s.

(** A byte [10xxxxxx] continues the code point begun before it. *)
Definition is_continuation (a : ascii) : bool :=
  let n := nat_of_ascii a in (128 <=? n)%nat && (n <? 192)%nat.

Definition starts_with_continuation (s : string) : bool :=
  match s with
  | String b _ => is_continuation b
  | EmptyString => false
  end.

(** The characters of a [str], one string per code point. *)
Fixpoint utf8_chars (s : string) : list string :=
  match s with
  | EmptyString => []
  | String a rest =>
      match utf8_chars rest with
      | ch :: chs =>
          if starts_with_continuation rest then String a ch :: chs
          else String a EmptyString :: ch :: chs
      | [] => [String a EmptyString]
      end
  end.

(** ** Rendering integers *)

(** [str(z)] for an [int]. *)
Definition py_str_int (z : Z) : string := NilZero.string_of_int (Z.to_int z).

Definition int_sign (z : Z) : string := if z <? 0 then "-" else EmptyString.

(** The decimal digits of [|z|]. *)
Definition int_digits (z : Z) : string :=
  NilZero.string_of_uint (N.to_uint (Z.abs_N z)).

Fixpoint take (n : nat) (s : string) : string :=
  match n, s with
  | S n', String a rest => String a (take n' rest)
  | _, _ => EmptyString
  end.

Fixpoint drop (n : nat) (s : string) : string :=
  match n, s with
  | S n', String _ rest => drop n' rest
  | _, _ => s
  end.

(** [s] cut into pieces of three characters from the left. *)
Fixpoint chunks3 (s : string) : list string :=
  match s with
  | String a (String b (String c rest)) =>
      String a (String b (String c EmptyString)) :: chunks3 rest
  | EmptyString => []
  | _ => [s]
  end.

(** The digit groups of the [','] format option: counted in threes from the
    right, so only the leading group can be shorter. *)
Definition group_thousands (digits : string) : list string :=
  match (String.length digits mod 3)%nat with
  | O => chunks3 digits
  | r => take r digits :: chunks3 (drop r digits)
  end.

(** [format(z, ',')] for an [int]. *)
Definition format_grouped (z : Z) : string :=
  int_sign z ++ String.concat "," (group_thousands (int_digits z)).

(** ** Effects *)

Record Response : Type := {
  status_code : Z;
  (** the decoded body, [None] when the body is not JSON *)
  body_json : option pyval
}.

Inductive event : Type :=
| EPrint (line : string)
| EGet (url : string) (headers : list (string * string))
| EPost (url : string) (json : pyval).

Definition trace : Type := list event.

(** What the program is run against.  [http_get] and [http_post] give the
    response to a request, [None] when none arrives.  [builtin_format v spec]
    is the interpreter's [format(v, spec)] on the values whose text this
    development leaves open: floats, lists and dicts. *)
Record Host : Type := {
  environ : list (string * string);
  http_get : string -> list (string * string) -> option Response;
  http_post : string -> pyval -> option Response;
  builtin_format : pyval -> string -> string
}.

Definition M (A : Type) : Type := trace -> outcome A * trace.

Definition ret {A : Type} (a : A) : M A := fun tr => (Returned a, tr).

Definition raise {A : Type} (e : exn) : M A := fun tr => (Raised e, tr).

Definition bind {A B : Type} (m : M A) (k : A -> M B) : M B :=
  fun tr =>
    match m tr with
    | (Returned a, tr') => k a tr'
    | (Raised e, tr') => (Raised e, tr')
    end.

Definition lift {A : Type} (o : outcome A) : M A := fun tr => (o, tr).

Definition emit (e : event) : M unit :=
  fun tr => (Returned tt, (tr ++ [e])%list).

Notation "x <- m ;; k" := (bind m (fun x => k))
  (at level 61, m at next level, right associativity).
Notation "m ;;; k" := (bind m (fun _ => k))
  (at level 61, right associativity).

(** ** Built-in operations *)

Fixpoint assoc {A : Type} (key : string) (items : list (string * A))
    : option A :=
  match items with
  | [] => None
  | (k, v) :: rest => if String.eqb k key then Some v else assoc key rest
  end.

(** [v[key]] with a string key. *)
Definition subscript (v : pyval) (key : string) : outcome pyval :=
  match v with
  | PDict items =>
      match assoc key items with
      | Some x => Returned x
      | None => Raised (KeyError key)
      end
  | _ => Raised TypeError
  end.

(** The values a [for] loop over [v] visits. *)
Definition py_iter (v : pyval) : outcome (list pyval) :=
  match v with
  | PList elems => Returned elems
  | PDict items => Returned (map (fun kv => PStr (fst kv)) items)
  | PStr s => Returned (map PStr (utf8_chars s))
  | _ => Raised TypeError
  end.

(** [prefix + v] for a string literal [prefix]. *)
Definition str_add (prefix : string) (v : pyval) : outcome string :=
  match v with
  | PStr s => Returned (prefix ++ s)
  | _ => Raised TypeError
  end.

(** A replacement field [{v}] of an f-string. *)
Definition format_plain (h : Host) (v : pyval) : string :=
  match v with
  | PStr s => s
  | PInt z => py_str_int z
  | PBool true => "True"
  | PBool false => "False"
  | PNone => "None"
  | _ => builtin_format h v EmptyString
  end.

(** A replacement field [{v:,}] of an f-string. *)
Definition format_comma (h : Host) (v : pyval) : outcome string :=
  match v with
  | PInt z => Returned (format_grouped z)
  | PBool b => Returned (format_grouped (if b then 1 else 0))
  | PFloat _ => Returned (builtin_format h v ",")
  | PStr _ => Raised ValueError
  | _ => Raised TypeError
  end.

Definition print (line : string) : M unit := emit (EPrint line).

Definition requests_get (h : Host) (url : string)
    (headers : list (string * string)) : M Response :=
  emit (EGet url headers) ;;;
  match http_get h url headers with
  | Some r => ret r
  | None => raise RequestException
  end.

Definition requests_post (h : Host) (url : string) (json : pyval)
    : M Response :=
  emit (EPost url json) ;;;
  match http_post h url json with
  | Some r => ret r
  | None => raise RequestException
  end.

Definition response_json (r : Response) : outcome pyval :=
  match body_json r with
  | Some v => Returned v
  | None => Raised JSONDecodeError
  end.

(** A [for] loop whose body may [return]: [Some r] ends the loop with [r]. *)
Fixpoint for_loop {R : Type} (values : list pyval)
    (body : pyval -> M (option R)) : M (option R) :=
  match values with
  | [] => ret None
  | v :: rest =>
      r <- body v ;;
      match r with
      | Some x => ret (Some x)
      | None => for_loop rest body
      end
  end.

(** ** The script *)

Definition LFs : string := String LF EmptyString.

(** The body of the loop of [get_rising_submissions]. *)
Definition rising_item (h : Host) (item : pyval)
    : M (option (string * pyval)) :=
  item_data <- lift (subscript item "data") ;;
  title <- lift (subscript item_data "title") ;;
  path <- lift (subscript item_data "permalink") ;;
  permalink <- lift (str_add "https://reddit.com" path) ;;
  author <- lift (subscript item_data "author") ;;
  score <- lift (subscript item_data "score") ;;
  image_url <- lift (subscript item_data "url") ;;
  points <- lift (format_comma h score) ;;
  let message :=
    "[" ++ format_plain h title ++ "](" ++ permalink ++ ")" ++ LFs
    ++ "by **" ++ format_plain h author ++ "**" ++ LFs
    ++ "**" ++ points ++ "** points" in
  ret (Some (message, image_url)).

Definition get_rising_submissions (h : Host) (subreddit : string)
    : M (option (string * pyval)) :=
  let url :=
    "https://www.reddit.com/r/" ++ subreddit ++ "/rising.json?limit=1" in
  let headers := [("User-Agent", "Reddit Rising Checker v1.0")] in
  response <- requests_get h url headers ;;
  body <- lift (response_json response) ;;
  listing <- lift (subscript body "data") ;;
  data <- lift (subscript listing "children") ;;
  values <- lift (py_iter data) ;;
  for_loop values (rising_item h).

(** The footer's text: ["Powered by Elf Magic"] and the characters U+00E2,
    U+201E, U+00A2. *)
Definition footer_text : string :=
  "Powered by Elf Magic" ++ bytes [195; 162; 226; 128; 158; 194; 162]%nat.

Definition payload (message image_url : pyval) : pyval :=
  PDict
    [("username", PStr "Rising Posts");
     ("embeds",
      PList
        [PDict
           [("title", PStr "Top Rising Post");
            ("color", PInt 102204);
            ("description", message);
            ("thumbnail", PDict [("url", image_url)]);
            ("footer", PDict [("text", PStr footer_text)])]])].

Definition post_message (h : Host) (WEBHOOK_URL : string)
    (message image_url : pyval) : M unit :=
  response <- requests_post h WEBHOOK_URL (payload message image_url) ;;
  print (py_str_int (status_code response)).

(** [message, image_url = r]: [None] cannot be unpacked. *)
Definition unpack_pair (r : option (string * pyval))
    : outcome (pyval * pyval) :=
  match r with
  | Some (message, image_url) => Returned (PStr message, image_url)
  | None => Raised TypeError
  end.

Definition main (h : Host) (WEBHOOK_URL : string) : M unit :=
  print "Connecting to Reddit..." ;;;
  r <- get_rising_submissions h "pics" ;;
  p <- lift (unpack_pair r) ;;
  print "Data received. Sending webhook..." ;;;
  post_message h WEBHOOK_URL (fst p) (snd p).

(** The module run as a program: the assignment of [WEBHOOK_URL], then
    [main()]. *)
Definition script (h : Host) : M unit :=
  WEBHOOK_URL <- lift (match assoc "WEBHOOK" (environ h) with
                       | Some v => Returned v
                       | None => Raised (KeyError "WEBHOOK")
                       end) ;;
  main h WEBHOOK_URL.

(** The status the process ends with. *)
Definition exit_code (o : outcome unit) : Z :=
  match o with
  | Returned _ => 0
  | Raised _ => 1
  end.

Definition run (h : Host) : outcome unit * trace := script h [].

(** ** Vocabulary of the statements *)

(** The five fields of a listing item that the script reads. *)
Record Item : Type := {
  it_title : string;
  it_permalink : string;
  it_author : string;
  it_score : Z;
  it_url : string
}.

Definition rising_url (subreddit : string) : string :=
  "https://www.reddit.com/r/" ++ subreddit ++ "/rising.json?limit=1".

Definition request_headers : list (string * string) :=
  [("User-Agent", "Reddit Rising Checker v1.0")].

(** [body] is an object whose [data.children] is the sequence [children]. *)
Definition listing_of (body : pyval) (children : list pyval) : Prop :=
  exists listing,
    subscript body "data" = Returned listing /\
    subscript listing "children" = Returned (PList children).

(** [child] is an object whose [data] carries the fields of [it], typed as
    the listing endpoint types them. *)
Definition item_is (child : pyval) (it : Item) : Prop :=
  exists item_data,
    subscript child "data" = Returned item_data /\
    subscript item_data "title" = Returned (PStr (it_title it)) /\
    subscript item_data "permalink" = Returned (PStr (it_permalink it)) /\
    subscript item_data "author" = Returned (PStr (it_author it)) /\
    subscript item_data "score" = Returned (PInt (it_score it)) /\
    subscript item_data "url" = Returned (PStr (it_url it)).

(** The GET for [subreddit] is answered by a JSON listing. *)
Definition get_answers (h : Host) (subreddit : string) (status : Z)
    (children : list pyval) : Prop :=
  exists body,
    http_get h (rising_url subreddit) request_headers
      = Some {| status_code := status; body_json := Some body |} /\
    listing_of body children.

Definition link_line (it : Item) : string :=
  "[" ++ it_title it ++ "](" ++ "https://reddit.com" ++ it_permalink it ++ ")".

Definition author_line (it : Item) : string := "by **" ++ it_author it ++ "**".

Definition score_line (it : Item) : string :=
  "**" ++ format_grouped (it_score it) ++ "** points".

Definition summary_of (it : Item) : string :=
  link_line it ++ LFs ++ author_line it ++ LFs ++ score_line it.


(** The fields of a payload that do not come from the arguments of
    [post_message]: display name, embed title, embed color, footer text. *)
Definition the_embed (p : pyval) : outcome pyval :=
  match subscript p "embeds" with
  | Returned (PList [e]) => Returned e
  | Returned _ => Raised TypeError
  | Raised e => Raised e
  end.

Definition embed_field (p : pyval) (key : string) : outcome pyval :=
  match the_embed p with
  | Returned e => subscript e key
  | Raised e => Raised e
  end.

Definition fixed_fields (p : pyval) : list (outcome pyval) :=
  [subscript p "username";
   embed_field p "title";
   embed_field p "color";
   match embed_field p "footer" with
   | Returned f => subscript f "text"
   | Raised e => Raised e
   end].

Definition has_post (tr : trace) : bool :=
  existsb (fun e => match e with EPost _ _ => true | _ => false end) tr.

Definition has_get (tr : trace) : bool :=
  existsb (fun e => match e with EGet _ _ => true | _ => false end) tr.

(** Reading a decimal numeral back. *)
Definition parse_int (s : string) : option Z :=
  option_map Z.of_int (NilZero.int_of_string s).

Definition is_digit (a : ascii) : bool :=
  let n := nat_of_ascii a in (48 <=? n)%nat && (n <=? 57)%nat.

Fixpoint all_chars (p : ascii -> bool) (s : string) : bool :=
  match s with
  | EmptyString => true
  | String a rest => p a && all_chars p rest
  end.

(** Concrete inputs. *)

Definition listing_body (children : list pyval) : pyval :=
  PDict [("kind", PStr "Listing");
         ("data", PDict [("after", PNone); ("children", PList children)])].

Definition child_of (it : Item) : pyval :=
  PDict [("kind", PStr "t3");
         ("data",
          PDict [("title", PStr (it_title it));
                 ("permalink", PStr (it_permalink it));
                 ("author", PStr (it_author it));
                 ("score", PInt (it_score it));
                 ("url", PStr (it_url it))])].

(** A host with the webhook configured, whose listing endpoint answers with
    [status] and [body] and whose webhook answers with [posted]. *)
Definition host_of (status : Z) (body : option pyval) (posted : Z) : Host :=
  {| environ := [("PATH", "/usr/bin"); ("WEBHOOK", "https://hooks.example/w")];
     http_get := fun _ _ =>
       Some {| status_code := status; body_json := body |};
     http_post := fun _ _ =>
       Some {| status_code := posted; body_json := None |};
     builtin_format := fun _ _ => EmptyString |}.

Definition cute_cat : Item :=
  {| it_title := "Cute cat";
     it_permalink := "/r/pics/comments/x/cute_cat/";
     it_author := "catlover";
     it_score := 4200;
     it_url := "https://i.example/cat.jpg" |}.

Definition host_cat : Host :=
  host_of 200 (Some (listing_body [child_of cute_cat])) 204.

Definition host_rejected : Host :=
  host_of 200 (Some (listing_body [child_of cute_cat])) 400.

Definition host_empty : Host := host_of 200 (Some (listing_body [])) 204.





Definition host_unconfigured : Host :=
  {| environ := [("PATH", "/usr/bin"); ("HOME", "/root")];
     http_get := http_get host_cat;
     http_post := http_post host_cat;
     builtin_format := builtin_format host_cat |}.

Definition abc_item : Item :=
  {| it_title := "A title";
     it_permalink := "/r/pics/comments/abc123/title/";
     it_author := "someone";
     it_score := 12345;
     it_url := "https://i.example/abc.png" |}.

(** [cute_cat] under another url. *)
Definition cute_cat_elsewhere : Item :=
  {| it_title := it_title cute_cat;
     it_permalink := it_permalink cute_cat;
     it_author := it_author cute_cat;
     it_score := it_score cute_cat;
     it_url := "https://i.example/other.gif" |}.

Definition host_two_children : Host :=
  host_of 200
    (Some (listing_body [child_of cute_cat_elsewhere; child_of abc_item])) 204.

Definition host_abc : Host :=
  host_of 200 (Some (listing_body [child_of abc_item])) 204.

(** An item whose permalink holds a line feed. *)
Definition broken_path_item : Item :=
  {| it_title := "A title";
     it_permalink := "/r/pics/comments/abc123/" ++ String LF "title/";
     it_author := "someone";
     it_score := 7;
     it_url := "https://i.example/abc.png" |}.

Definition host_broken_path : Host :=
  host_of 200 (Some (listing_body [child_of broken_path_item])) 204.

(** ** Vocabulary of the further statements *)

(** [child] is an object whose [data] has the five keys, bound to values of
    any type. *)
Definition item_has (child title path author score url : pyval) : Prop :=
  exists item_data,
    subscript child "data" = Returned item_data /\
    subscript item_data "title" = Returned title /\
    subscript item_data "permalink" = Returned path /\
    subscript item_data "author" = Returned author /\
    subscript item_data "score" = Returned score /\
    subscript item_data "url" = Returned url.



(** The keys the loop body reads, in the order it reads them. *)
Definition required_keys : list string :=
  ["title"; "permalink"; "author"; "score"; "url"].

(** The first of those keys that [members] does not bind. *)
Definition first_missing (members : list (string * pyval)) : option string :=
  find (fun key => match assoc key members with
                   | None => true
                   | Some _ => false
                   end) required_keys.

Fixpoint count_char (c : ascii) (s : string) : nat :=
  match s with
  | EmptyString => O
  | String a rest =>
      ((if Ascii.eqb a c then 1 else 0) + count_char c rest)%nat
  end.

(** The events of a complete run, in order. *)
Definition progress_fetch : event := EPrint "Connecting to Reddit...".

Definition the_get : event := EGet (rising_url "pics") request_headers.

Definition progress_send : event := EPrint "Data received. Sending webhook...".

Definition is_list (v : pyval) : bool :=
  match v with
  | PList _ => true
  | _ => false
  end.

(** Further concrete inputs. *)

Definition host_no_reply : Host :=
  {| environ := environ host_cat;
     http_get := fun _ _ => None;
     http_post := http_post host_cat;
     builtin_format := builtin_format host_cat |}.

Definition host_webhook_down : Host :=
  {| environ := environ host_cat;
     http_get := http_get host_cat;
     http_post := fun _ _ => None;
     builtin_format := builtin_format host_cat |}.

(** A listing whose first child is [null] and whose second is well formed. *)
Definition host_bad_first : Host :=
  host_of 200 (Some (listing_body [PNone; child_of cute_cat])) 204.

Definition no_score_members : list (string * pyval) :=
  [("title", PStr "Cute cat");
   ("permalink", PStr "/r/pics/comments/x/cute_cat/");
   ("author", PStr "catlover");
   ("url", PStr "https://i.example/cat.jpg")].

Definition host_no_score : Host :=
  host_of 200
    (Some (listing_body [PDict [("data", PDict no_score_members)]])) 204.

Definition text_score_child : pyval :=
  PDict [("data",
          PDict [("title", PStr "Cute cat");
                 ("permalink", PStr "/r/pics/comments/x/cute_cat/");
                 ("author", PStr "catlover");
                 ("score", PStr "4200");
                 ("url", PStr "https://i.example/cat.jpg")])].

Definition host_text_score : Host :=
  host_of 200 (Some (listing_body [text_score_child])) 204.



(** An item with a number for permalink and no score. *)
Definition numeric_path_members : list (string * pyval) :=
  [("title", PStr "Cute cat");
   ("permalink", PInt 7);
   ("author", PStr "catlover");
   ("url", PStr "https://i.example/cat.jpg")].

Definition host_numeric_path : Host :=
  host_of 200
    (Some (listing_body [PDict [("data", PDict numeric_path_members)]])) 204.

(** A body whose [children] is the empty object. *)
Definition host_children_empty_object : Host :=
  host_of 200
    (Some (PDict [("data", PDict [("children", PDict [])])])) 204.

(** A body whose [children] is an object instead of an array. *)
Definition host_children_object : Host :=
  host_of 200
    (Some (PDict [("data",
                   PDict [("children",
                           PDict [("0", child_of cute_cat)])])])) 204.

(** A title of two lines. *)
Definition two_line_title_item : Item :=
  {| it_title := "Cute" ++ String LF "cat";
     it_permalink := "/r/pics/comments/x/cute_cat/";
     it_author := "catlover";
     it_score := 4200;
     it_url := "https://i.example/cat.jpg" |}.

Definition host_two_line_title : Host :=
  host_of 200 (Some (listing_body [child_of two_line_title_item])) 204.

(** Proving [get_answers] and [item_is] of a concrete listing. *)
Ltac listing_shape :=
  eexists; split; [reflexivity | eexists; split; reflexivity].

Ltac item_shape := eexists; repeat split; reflexivity.

Example format_grouped_4200 : format_grouped 4200 = "4,200".
Proof. reflexivity. Qed.

Example format_grouped_small :
  map format_grouped [0; 7; 999; 1000; -5; -1234; -1234567; 100000]
  = ["0"; "7"; "999"; "1,000"; "-5"; "-1,234"; "-1,234,567"; "100,000"].
Proof. reflexivity. Qed.

Example py_str_int_small :
  map py_str_int [0; 204; 400; -17] = ["0"; "204"; "400"; "-17"].
Proof. reflexivity. Qed.

Example utf8_chars_mixed :
  utf8_chars ("a" ++ bytes [195; 162]%nat ++ "b" ++ bytes [226; 128; 158]%nat)
  = ["a"; bytes [195; 162]%nat; "b"; bytes [226; 128; 158]%nat].
Proof. reflexivity. Qed.

(** Items that are not typed as the endpoint types them. *)

Example missing_author :
  fst (get_rising_submissions
         (host_of 200
            (Some (listing_body
                     [PDict [("data",
                              PDict [("title", PStr "t");
                                     ("permalink", PStr "/p")])]])) 204)
         "pics" [])
  = Raised (KeyError "author").
Proof. reflexivity. Qed.

Example score_as_text :
  fst (get_rising_submissions
         (host_of 200
            (Some (listing_body
                     [PDict [("data",
                              PDict [("title", PStr "t");
                                     ("permalink", PStr "/p");
                                     ("author", PStr "a");
                                     ("score", PStr "12");
                                     ("url", PNone)])]])) 204)
         "pics" [])
  = Raised ValueError.
Proof. reflexivity. Qed.

Example children_as_object :
  fst (get_rising_submissions
         (host_of 200
            (Some (PDict [("data",
                           PDict [("children",
                                   PDict [("first", PNone)])])])) 204)
         "pics" [])
  = Raised TypeError.
Proof. reflexivity. Qed.

Example untyped_fields :
  fst (get_rising_submissions
         (host_of 200
            (Some (listing_body
                     [PDict [("data",
                              PDict [("title", PInt 42);
                                     ("permalink", PStr "/p");
                                     ("author", PNone);
                                     ("score", PBool true);
                                     ("url", PNone)])]])) 204)
         "pics" [])
  = Returned (Some ("[42](https://reddit.com/p)" ++ LFs
                    ++ "by **None**" ++ LFs
                    ++ "**1** points", PNone)).
Proof. reflexivity. Qed.

(** ** Strings: basic facts *)

Lemma append_assoc (a b c : string) : (a ++ b) ++ c = a ++ (b ++ c).
Proof.
  induction a as [|x a IH]; simpl; [reflexivity | now rewrite IH].
Qed.

Lemma append_empty_r (a : string) : a ++ EmptyString = a.
Proof.
  induction a as [|x a IH]; simpl; [reflexivity | now rewrite IH].
Qed.

(** ** The fetch on a listing *)

Lemma item_is_rising (h : Host) (child : pyval) (it : Item) (tr : trace) :
  item_is child it ->
  rising_item h child tr
  = (Returned (Some (summary_of it, PStr (it_url it))), tr).
Proof.
  intros (item_data & Hd & Ht & Hp & Ha & Hs & Hu).
  unfold rising_item, bind, lift, ret.
  rewrite Hd, Ht, Hp, Ha, Hs, Hu.
  cbn [str_add format_comma format_plain].
  unfold summary_of, link_line, author_line, score_line.
  repeat rewrite append_assoc. reflexivity.
Qed.

Lemma fetch_listing (h : Host) (subreddit : string) (status : Z)
    (children : list pyval) (tr : trace) :
  get_answers h subreddit status children ->
  get_rising_submissions h subreddit tr
  = for_loop children (rising_item h)
      (tr ++ [EGet (rising_url subreddit) request_headers])%list.
Proof.
  intros (body & Hget & listing & Hdata & Hchildren).
  unfold get_rising_submissions, requests_get, bind, emit, lift, ret.
  fold (rising_url subreddit). fold request_headers.
  rewrite Hget. unfold response_json. cbn [body_json].
  rewrite Hdata, Hchildren. reflexivity.
Qed.

Lemma fetch_first_item (h : Host) (subreddit : string) (status : Z)
    (child : pyval) (rest : list pyval) (it : Item) (tr : trace) :
  get_answers h subreddit status (child :: rest) ->
  item_is child it ->
  get_rising_submissions h subreddit tr
  = (Returned (Some (summary_of it, PStr (it_url it))),
     (tr ++ [EGet (rising_url subreddit) request_headers])%list).
Proof.
  intros Hget Hitem.
  rewrite (fetch_listing _ _ _ _ _ Hget).
  cbn [for_loop]. unfold bind.
  rewrite (item_is_rising _ _ _ _ Hitem). reflexivity.
Qed.

Lemma fetch_empty_listing (h : Host) (subreddit : string) (status : Z)
    (tr : trace) :
  get_answers h subreddit status [] ->
  get_rising_submissions h subreddit tr
  = (Returned None,
     (tr ++ [EGet (rising_url subreddit) request_headers])%list).
Proof.
  intros Hget. rewrite (fetch_listing _ _ _ _ _ Hget). reflexivity.
Qed.

Lemma post_message_completes (h : Host) (url : string)
    (message image_url : pyval) (resp : Response) (tr : trace) :
  http_post h url (payload message image_url) = Some resp ->
  post_message h url message image_url tr
  = (Returned tt,
     (tr ++ [EPost url (payload message image_url);
             EPrint (py_str_int (status_code resp))])%list).
Proof.
  intros Hpost.
  unfold post_message, requests_post, print, bind, emit, ret.
  rewrite Hpost. rewrite <- app_assoc. reflexivity.
Qed.

Lemma run_unfold (h : Host) (url : string) :
  assoc "WEBHOOK" (environ h) = Some url ->
  run h = main h url [].
Proof.
  intros Henv. unfold run, script, bind, lift. now rewrite Henv.
Qed.

Lemma main_unfold (h : Host) (url : string) (tr : trace) :
  main h url tr
  = match get_rising_submissions h "pics"
            (tr ++ [EPrint "Connecting to Reddit..."])%list with
    | (Returned (Some (message, image_url)), tr1) =>
        post_message h url (PStr message) image_url
          (tr1 ++ [EPrint "Data received. Sending webhook..."])%list
    | (Returned None, tr1) => (Raised TypeError, tr1)
    | (Raised e, tr1) => (Raised e, tr1)
    end.
Proof.
  unfold main, bind, print, emit, lift.
  destruct (get_rising_submissions h "pics" _) as [[[[m u]|]|e] tr1];
    reflexivity.
Qed.

(** ** The end-to-end scenario *)

(** C1: when the response to the GET is a listing whose only child carries
    title "Cute cat", permalink "/r/pics/comments/x/cute_cat/", author
    "catlover", score 4200 and url "https://i.example/cat.jpg",
    [get_rising_submissions] returns the pair of the three-line summary
    "[Cute cat](https://reddit.com/r/pics/comments/x/cute_cat/)",
    "by **catlover**", "**4,200** points" and the image url
    "https://i.example/cat.jpg". *)
Theorem cute_cat_summary (h : Host) (subreddit : string) (status : Z)
    (child : pyval) (tr : trace) :
  get_answers h subreddit status [child] ->
  item_is child cute_cat ->
  fst (get_rising_submissions h subreddit tr)
  = Returned
      (Some ("[Cute cat](https://reddit.com/r/pics/comments/x/cute_cat/)" ++ LFs
             ++ "by **catlover**" ++ LFs
             ++ "**4,200** points",
             PStr "https://i.example/cat.jpg")).
Proof.
  intros Hget Hitem.
  rewrite (fetch_first_item _ _ _ _ _ _ _ Hget Hitem). reflexivity.
Qed.

(** ** Failures of the fetch *)

(** What the code does on a listing with no children, for every host: the
    loop body never runs, [get_rising_submissions] falls off its end and
    returns [None] instead of the documented tuple, and the exception only
    comes up in [main], where [None] cannot be unpacked. *)
Lemma empty_listing_stops_in_main (h : Host) (url : string) (status : Z) :
  assoc "WEBHOOK" (environ h) = Some url ->
  get_answers h "pics" status [] ->
  (forall tr,
     get_rising_submissions h "pics" tr
     = (Returned None,
        (tr ++ [EGet (rising_url "pics") request_headers])%list)) /\
  run h = (Raised TypeError,
           [EPrint "Connecting to Reddit...";
            EGet (rising_url "pics") request_headers]) /\
  exit_code (fst (run h)) = 1 /\
  has_post (snd (run h)) = false.
Proof.
  intros Henv Hget.
  assert (Hrun : run h = (Raised TypeError,
                          [EPrint "Connecting to Reddit...";
                           EGet (rising_url "pics") request_headers])).
  { rewrite (run_unfold _ _ Henv), main_unfold.
    rewrite (fetch_empty_listing _ _ _ _ Hget). reflexivity. }
  split; [intros tr; apply (fetch_empty_listing _ _ _ _ Hget)|].
  rewrite Hrun. repeat split.
Qed.




(** ** The notification *)

(** C4: whatever message and image url [post_message] is given, the payload
    it posts carries the display name "Rising Posts", the embed title
    "Top Rising Post", the embed color 102204 and the footer text
    "Powered by Elf Magic" followed by the three trademark characters; these
    four fields are the same for any two inputs, and the two arguments only
    fill the description and the thumbnail url. *)
Theorem payload_fixed_fields (message image_url : pyval) :
  fixed_fields (payload message image_url)
  = [Returned (PStr "Rising Posts");
     Returned (PStr "Top Rising Post");
     Returned (PInt 102204);
     Returned (PStr ("Powered by Elf Magic"
                     ++ bytes [195; 162; 226; 128; 158; 194; 162]%nat))] /\
  (forall message' image_url',
     fixed_fields (payload message' image_url')
     = fixed_fields (payload message image_url)) /\
  embed_field (payload message image_url) "description" = Returned message /\
  embed_field (payload message image_url) "thumbnail"
  = Returned (PDict [("url", image_url)]) /\
  (forall h url tr,
     In (EPost url (payload message image_url))
        (snd (post_message h url message image_url tr))).
Proof.
  repeat split.
  intros h url tr.
  unfold post_message, requests_post, print, bind, emit, ret.
  destruct (http_post h url _) as [r|]; cbn [snd]; apply in_or_app.
  - left. apply in_or_app. right. now left.
  - right. now left.
Qed.

(** C5: when the POST to the webhook completes, with whatever status,
    [post_message] prints that status in decimal and returns; a run whose
    fetch produced a pair then ends normally, with exit status 0, the printed
    status being its last output. *)
Theorem delivery_status_printed (h : Host) (url message : string)
    (image_url : pyval) (resp : Response) (tr1 : trace) :
  assoc "WEBHOOK" (environ h) = Some url ->
  get_rising_submissions h "pics" [EPrint "Connecting to Reddit..."]
    = (Returned (Some (message, image_url)), tr1) ->
  http_post h url (payload (PStr message) image_url) = Some resp ->
  (forall tr,
     post_message h url (PStr message) image_url tr
     = (Returned tt,
        (tr ++ [EPost url (payload (PStr message) image_url);
                EPrint (py_str_int (status_code resp))])%list)) /\
  run h = (Returned tt,
           (tr1 ++ [EPrint "Data received. Sending webhook...";
                    EPost url (payload (PStr message) image_url);
                    EPrint (py_str_int (status_code resp))])%list) /\
  exit_code (fst (run h)) = 0.
Proof.
  intros Henv Hfetch Hpost.
  assert (Hrun : run h = (Returned tt,
           (tr1 ++ [EPrint "Data received. Sending webhook...";
                    EPost url (payload (PStr message) image_url);
                    EPrint (py_str_int (status_code resp))])%list)).
  { rewrite (run_unfold _ _ Henv), main_unfold. cbn [app]. rewrite Hfetch.
    rewrite (post_message_completes _ _ _ _ _ _ Hpost).
    now rewrite <- app_assoc. }
  split; [intros tr; apply (post_message_completes _ _ _ _ _ _ Hpost)|].
  split; [exact Hrun|]. now rewrite Hrun.
Qed.

(** ** Start-up *)

(** C6: when the environment has no WEBHOOK entry, the program ends with a
    [KeyError] before performing any event: nothing is printed and neither
    the GET nor the POST is issued. *)
Theorem missing_webhook_aborts (h : Host) :
  assoc "WEBHOOK" (environ h) = None ->
  run h = (Raised (KeyError "WEBHOOK"), []) /\
  exit_code (fst (run h)) = 1 /\
  has_get (snd (run h)) = false /\
  has_post (snd (run h)) = false.
Proof.
  intros Henv.
  assert (Hrun : run h = (Raised (KeyError "WEBHOOK"), [])).
  { unfold run, script, bind, lift. now rewrite Henv. }
  rewrite Hrun. repeat split.
Qed.

(** ** What the summary depends on *)

(** C10: for two listings with at least one child each, the summaries agree
    as soon as the first children agree on title, permalink, author and
    score, whatever their url fields, the later children, the statuses and
    the hosts are; and the image url returned is the url field of the first
    child, so it agrees as soon as those url fields do. *)
Theorem summary_noninterference (h1 h2 : Host) (subreddit : string)
    (status1 status2 : Z) (child1 child2 : pyval) (rest1 rest2 : list pyval)
    (it1 it2 : Item) (tr1 tr2 : trace) :
  get_answers h1 subreddit status1 (child1 :: rest1) ->
  get_answers h2 subreddit status2 (child2 :: rest2) ->
  item_is child1 it1 ->
  item_is child2 it2 ->
  exists m1 u1 m2 u2,
    fst (get_rising_submissions h1 subreddit tr1) = Returned (Some (m1, u1)) /\
    fst (get_rising_submissions h2 subreddit tr2) = Returned (Some (m2, u2)) /\
    u1 = PStr (it_url it1) /\
    u2 = PStr (it_url it2) /\
    (it_title it1 = it_title it2 ->
     it_permalink it1 = it_permalink it2 ->
     it_author it1 = it_author it2 ->
     it_score it1 = it_score it2 ->
     m1 = m2) /\
    (it_url it1 = it_url it2 -> u1 = u2).
Proof.
  intros Hget1 Hget2 Hit1 Hit2.
  exists (summary_of it1), (PStr (it_url it1)),
         (summary_of it2), (PStr (it_url it2)).
  rewrite (fetch_first_item _ _ _ _ _ _ _ Hget1 Hit1).
  rewrite (fetch_first_item _ _ _ _ _ _ _ Hget2 Hit2).
  repeat split.
  - intros Ht Hp Ha Hs.
    unfold summary_of, link_line, author_line, score_line.
    now rewrite Ht, Hp, Ha, Hs.
  - now intros ->.
Qed.

(** ** Strings: characters, pieces and lines *)

Lemma contains_char_app (c : ascii) (a b : string) :
  contains_char c (a ++ b) = contains_char c a || contains_char c b.
Proof.
  induction a as [|x a IH]; simpl; [reflexivity|].
  now rewrite IH, orb_assoc.
Qed.

Lemma remove_char_app (c : ascii) (a b : string) :
  remove_char c (a ++ b) = remove_char c a ++ remove_char c b.
Proof.
  induction a as [|x a IH]; simpl; [reflexivity|].
  destruct (Ascii.eqb x c); simpl; now rewrite IH.
Qed.

Lemma remove_char_absent (c : ascii) (s : string) :
  contains_char c s = false -> remove_char c s = s.
Proof.
  induction s as [|x s IH]; simpl; [reflexivity|].
  intros H. apply orb_false_iff in H. destruct H as [Hx Hs].
  rewrite Hx. now rewrite (IH Hs).
Qed.

Lemma contains_char_remove (c d : ascii) (s : string) :
  Ascii.eqb d c = false ->
  contains_char c (remove_char d s) = contains_char c s.
Proof.
  intros Hdc. induction s as [|x s IH]; simpl; [reflexivity|].
  destruct (Ascii.eqb x d) eqn:Hxd; simpl.
  - apply Ascii.eqb_eq in Hxd. subst x. now rewrite Hdc, IH.
  - now rewrite IH.
Qed.

Lemma all_chars_absent (p : ascii -> bool) (c : ascii) (s : string) :
  p c = false -> all_chars p s = true -> contains_char c s = false.
Proof.
  intros Hc. induction s as [|x s IH]; simpl; [reflexivity|].
  intros H. apply andb_true_iff in H. destruct H as [Hx Hs].
  rewrite (IH Hs), orb_false_r.
  destruct (Ascii.eqb x c) eqn:E; [|reflexivity].
  apply Ascii.eqb_eq in E. subst x. congruence.
Qed.

Lemma split_on_clean (sep : ascii) (s : string) :
  contains_char sep s = false -> split_on sep s = [s].
Proof.
  induction s as [|x s IH]; simpl; [reflexivity|].
  intros H. apply orb_false_iff in H. destruct H as [Hx Hs].
  now rewrite Hx, (IH Hs).
Qed.

Lemma split_on_app (sep : ascii) (a b : string) :
  contains_char sep a = false ->
  split_on sep (a ++ String sep b) = a :: split_on sep b.
Proof.
  induction a as [|x a IH]; simpl.
  - intros _. now rewrite Ascii.eqb_refl.
  - intros H. apply orb_false_iff in H. destruct H as [Hx Ha].
    now rewrite Hx, (IH Ha).
Qed.

Lemma take_drop (n : nat) (s : string) : take n s ++ drop n s = s.
Proof.
  revert s. induction n as [|n IH]; intros [|a s]; simpl; try reflexivity.
  now rewrite IH.
Qed.

Lemma length_take (n : nat) (s : string) :
  (n <= String.length s)%nat -> String.length (take n s) = n.
Proof.
  revert s. induction n as [|n IH]; intros [|a s]; simpl; intros H;
    try reflexivity; try lia.
  rewrite IH; lia.
Qed.

Lemma length_drop (n : nat) (s : string) :
  String.length (drop n s) = (String.length s - n)%nat.
Proof.
  revert s. induction n as [|n IH]; intros [|a s]; simpl; try reflexivity.
  apply IH.
Qed.

(** Induction on strings three characters at a time. *)
Lemma string_ind3 (P : string -> Prop) :
  P EmptyString ->
  (forall a, P (String a EmptyString)) ->
  (forall a b, P (String a (String b EmptyString))) ->
  (forall a b c s, P s -> P (String a (String b (String c s)))) ->
  forall s, P s.
Proof.
  intros H0 H1 H2 H3.
  assert (H : forall s, P s /\ (forall a, P (String a s))
                        /\ (forall a b, P (String a (String b s)))).
  { induction s as [|x s (IHa & IHb & IHc)].
    - repeat split; auto.
    - repeat split; auto. }
  intros s. apply H.
Qed.

(** ** Digit groups *)

Lemma concat_chunks3 (s : string) : String.concat EmptyString (chunks3 s) = s.
Proof.
  induction s as [| a | a b | a b c s IH] using string_ind3; try reflexivity.
  cbn [chunks3].
  destruct (chunks3 s) as [|g gs] eqn:E.
  - cbn in IH. now subst s.
  - change (String.concat EmptyString
              (String a (String b (String c EmptyString)) :: g :: gs))
      with (String a (String b (String c
              (String.concat EmptyString (g :: gs))))).
    now rewrite IH.
Qed.

Lemma chunks3_shape (s : string) :
  (String.length s mod 3 = 0)%nat ->
  Forall (fun g => String.length g = 3%nat) (chunks3 s).
Proof.
  induction s as [| a | a b | a b c s IH] using string_ind3; intros H.
  - constructor.
  - discriminate H.
  - discriminate H.
  - cbn [chunks3]. constructor; [reflexivity|]. apply IH.
    change (String.length (String a (String b (String c s))))
      with (3 + String.length s)%nat in H.
    replace (3 + String.length s)%nat
      with (String.length s + 1 * 3)%nat in H by lia.
    now rewrite Nat.Div0.mod_add in H.
Qed.

Lemma group_thousands_concat (s : string) :
  String.concat EmptyString (group_thousands s) = s.
Proof.
  unfold group_thousands.
  destruct (String.length s mod 3)%nat as [|r] eqn:E.
  - apply concat_chunks3.
  - pose proof (concat_chunks3 (drop (S r) s)) as Hc.
    destruct (chunks3 (drop (S r) s)) as [|g gs].
    + change (String.concat EmptyString []) with EmptyString in Hc.
      change (take (S r) s = s).
      rewrite <- (take_drop (S r) s) at 2. now rewrite <- Hc, append_empty_r.
    + change (String.concat EmptyString (take (S r) s :: g :: gs))
        with (take (S r) s ++ String.concat EmptyString (g :: gs)).
      rewrite Hc. apply take_drop.
Qed.

Lemma group_thousands_shape (s : string) :
  s <> EmptyString ->
  exists first rest,
    group_thousands s = first :: rest /\
    (1 <= String.length first <= 3)%nat /\
    Forall (fun g => String.length g = 3%nat) rest.
Proof.
  intros Hs. unfold group_thousands.
  assert (Hlt : (String.length s mod 3 < 3)%nat)
    by (apply Nat.mod_upper_bound; discriminate).
  pose proof (Nat.Div0.mod_le (String.length s) 3) as Hle.
  destruct (String.length s mod 3)%nat as [|r] eqn:E.
  - pose proof (chunks3_shape s E) as Hall.
    destruct s as [|a [|b [|c s]]]; try congruence; try discriminate E.
    cbn [chunks3] in *. inversion Hall; subst.
    eexists _, _. split; [reflexivity|]. split; [cbn; lia | assumption].
  - eexists _, _. split; [reflexivity|].
    split; [rewrite length_take; lia|].
    apply chunks3_shape. rewrite length_drop.
    rewrite (Nat.div_mod_eq (String.length s) 3) at 1. rewrite E.
    replace (3 * (String.length s / 3) + S r - S r)%nat
      with (0 + (String.length s / 3) * 3)%nat by lia.
    now rewrite Nat.Div0.mod_add.
Qed.

Lemma remove_sep_concat (c : ascii) (gs : list string) :
  remove_char c (String.concat (String c EmptyString) gs)
  = remove_char c (String.concat EmptyString gs).
Proof.
  induction gs as [|g gs IH]; [reflexivity|].
  destruct gs as [|g' gs]; [reflexivity|].
  change (String.concat (String c EmptyString) (g :: g' :: gs))
    with (g ++ String c (String.concat (String c EmptyString) (g' :: gs))).
  change (String.concat EmptyString (g :: g' :: gs))
    with (g ++ String.concat EmptyString (g' :: gs)).
  rewrite !remove_char_app. cbn [remove_char].
  now rewrite Ascii.eqb_refl, IH.
Qed.

(** ** Decimal numerals *)

Lemma uint_digits (d : Decimal.uint) :
  all_chars is_digit (NilEmpty.string_of_uint d) = true.
Proof.
  induction d; simpl; auto.
Qed.

Lemma int_digits_are_digits (z : Z) : all_chars is_digit (int_digits z) = true.
Proof.
  unfold int_digits, NilZero.string_of_uint.
  destruct (N.to_uint (Z.abs_N z)); try apply uint_digits. reflexivity.
Qed.

Lemma int_digits_nonempty (z : Z) : int_digits z <> EmptyString.
Proof.
  unfold int_digits, NilZero.string_of_uint.
  destruct (N.to_uint (Z.abs_N z)); simpl; discriminate.
Qed.

Lemma py_str_int_sign_digits (z : Z) :
  py_str_int z = int_sign z ++ int_digits z.
Proof.
  destruct z; reflexivity.
Qed.

Lemma parse_py_str_int (z : Z) : parse_int (py_str_int z) = Some z.
Proof.
  unfold parse_int, py_str_int.
  rewrite NilZero.isi.
  - cbn [option_map]. now rewrite DecimalZ.of_to.
  - destruct z; simpl; try discriminate.
    intros [= H]. now apply DecimalPos.Unsigned.to_uint_nonnil in H.
  - destruct z; simpl; try discriminate.
    intros [= H]. now apply DecimalPos.Unsigned.to_uint_nonnil in H.
Qed.

Lemma int_sign_no (c : ascii) (z : Z) :
  Ascii.eqb "-"%char c = false -> contains_char c (int_sign z) = false.
Proof.
  intros H. unfold int_sign.
  destruct (z <? 0); cbn [contains_char]; [|reflexivity].
  now rewrite H.
Qed.

Lemma ungroup_format (z : Z) :
  remove_char comma (format_grouped z) = py_str_int z.
Proof.
  unfold format_grouped.
  rewrite remove_char_app.
  change "," with (String comma EmptyString).
  rewrite remove_sep_concat, group_thousands_concat.
  rewrite !remove_char_absent.
  - symmetry. apply py_str_int_sign_digits.
  - apply (all_chars_absent is_digit); [reflexivity|].
    apply int_digits_are_digits.
  - now apply int_sign_no.
Qed.

Lemma py_str_int_one_line (z : Z) : contains_char LF (py_str_int z) = false.
Proof.
  rewrite py_str_int_sign_digits, contains_char_app.
  rewrite int_sign_no by reflexivity.
  apply (all_chars_absent is_digit); [reflexivity|].
  apply int_digits_are_digits.
Qed.

Lemma format_grouped_one_line (z : Z) :
  contains_char LF (format_grouped z) = false.
Proof.
  rewrite <- (contains_char_remove LF comma) by reflexivity.
  rewrite ungroup_format. apply py_str_int_one_line.
Qed.

Lemma split_on_last (sep : ascii) (a b d : string) :
  last (split_on sep (a ++ String sep b)) d = last (split_on sep b) d /\
  exists p q ps, split_on sep (a ++ String sep b) = p :: q :: ps.
Proof.
  assert (Hne : forall s, exists q ps, split_on sep s = q :: ps).
  { intros s. destruct s as [|x s]; cbn [split_on]; [now eexists _, _|].
    destruct (Ascii.eqb x sep); [now eexists _, _|].
    destruct (split_on sep s); now eexists _, _. }
  induction a as [|x a (IHlast & p & q & ps & IHsplit)].
  - cbn [append split_on]. rewrite Ascii.eqb_refl.
    destruct (Hne b) as (q & ps & Hb). rewrite Hb.
    split; [reflexivity | now eexists _, _, _].
  - cbn [append split_on]. rewrite IHsplit in *.
    destruct (Ascii.eqb x sep).
    + split; [exact IHlast | now eexists _, _, _].
    + split; [exact IHlast | now eexists _, _, _].
Qed.

(** ** The lines of the summary *)

Lemma summary_lines (it : Item) :
  contains_char LF (it_title it) = false ->
  contains_char LF (it_permalink it) = false ->
  contains_char LF (it_author it) = false ->
  lines (summary_of it) = [link_line it; author_line it; score_line it].
Proof.
  intros Ht Hp Ha. unfold lines, summary_of.
  change (LFs ++ author_line it ++ LFs ++ score_line it)
    with (String LF (author_line it ++ String LF (score_line it))).
  rewrite split_on_app.
  2:{ unfold link_line. rewrite !contains_char_app, Ht, Hp. reflexivity. }
  rewrite split_on_app.
  2:{ unfold author_line. rewrite !contains_char_app, Ha. reflexivity. }
  rewrite split_on_clean; [reflexivity|].
  unfold score_line. rewrite !contains_char_app, format_grouped_one_line.
  reflexivity.
Qed.

Lemma summary_first_line (it : Item) :
  contains_char LF (it_title it) = false ->
  contains_char LF (it_permalink it) = false ->
  hd EmptyString (lines (summary_of it)) = link_line it.
Proof.
  intros Ht Hp. unfold lines, summary_of.
  change (LFs ++ author_line it ++ LFs ++ score_line it)
    with (String LF (author_line it ++ String LF (score_line it))).
  rewrite split_on_app; [reflexivity|].
  unfold link_line. rewrite !contains_char_app, Ht, Hp. reflexivity.
Qed.

Lemma summary_last_line (it : Item) :
  last (lines (summary_of it)) EmptyString = score_line it.
Proof.
  unfold lines, summary_of.
  rewrite <- append_assoc.
  change (LFs ++ score_line it) with (String LF (score_line it)).
  rewrite <- append_assoc.
  rewrite (proj1 (split_on_last LF _ _ _)).
  rewrite split_on_clean; [reflexivity|].
  unfold score_line. rewrite !contains_char_app, format_grouped_one_line.
  reflexivity.
Qed.

(** C7: the link line of the summary is "[title](" followed by the origin
    "https://reddit.com" joined to the item's permalink field as it is,
    followed by ")"; for the path "/r/pics/comments/abc123/title/" the link
    is "https://reddit.com/r/pics/comments/abc123/title/". *)
Theorem permalink_is_origin_plus_path (h : Host) (subreddit : string)
    (status : Z) (child : pyval) (rest : list pyval) (it : Item) (tr : trace) :
  get_answers h subreddit status (child :: rest) ->
  item_is child it ->
  exists message image_url,
    fst (get_rising_submissions h subreddit tr)
      = Returned (Some (message, image_url)) /\
    message
      = "[" ++ it_title it ++ "](" ++ ("https://reddit.com" ++ it_permalink it)
        ++ ")" ++ LFs ++ author_line it ++ LFs ++ score_line it /\
    (contains_char LF (it_title it) = false ->
     contains_char LF (it_permalink it) = false ->
     hd EmptyString (lines message)
       = "[" ++ it_title it ++ "](" ++ ("https://reddit.com" ++ it_permalink it)
         ++ ")") /\
    (it_permalink it = "/r/pics/comments/abc123/title/" ->
     "https://reddit.com" ++ it_permalink it
       = "https://reddit.com/r/pics/comments/abc123/title/").
Proof.
  intros Hget Hitem.
  exists (summary_of it), (PStr (it_url it)).
  rewrite (fetch_first_item _ _ _ _ _ _ _ Hget Hitem).
  assert (Hlink : link_line it
                  = "[" ++ it_title it ++ "]("
                    ++ ("https://reddit.com" ++ it_permalink it) ++ ")").
  { unfold link_line. now rewrite !append_assoc. }
  split; [reflexivity|]. split; [|split].
  - unfold summary_of. rewrite Hlink. now rewrite !append_assoc.
  - intros Ht Hp. rewrite <- Hlink. now apply summary_first_line.
  - now intros ->.
Qed.

(** C8, as the code has it: for a listing with at least one item whose
    title, permalink and author hold no line feed, the summary has exactly
    three lines, in this order: the link line "[title](permalink)", the
    author line "by **author**" and the score line. *)
Theorem summary_three_lines (h : Host) (subreddit : string) (status : Z)
    (child : pyval) (rest : list pyval) (it : Item) (tr : trace) :
  get_answers h subreddit status (child :: rest) ->
  item_is child it ->
  contains_char LF (it_title it) = false ->
  contains_char LF (it_permalink it) = false ->
  contains_char LF (it_author it) = false ->
  exists message image_url,
    fst (get_rising_submissions h subreddit tr)
      = Returned (Some (message, image_url)) /\
    lines message
      = ["[" ++ it_title it ++ "](" ++ "https://reddit.com" ++ it_permalink it
         ++ ")";
         "by **" ++ it_author it ++ "**";
         "**" ++ format_grouped (it_score it) ++ "** points"].
Proof.
  intros Hget Hitem Ht Hp Ha.
  exists (summary_of it), (PStr (it_url it)).
  rewrite (fetch_first_item _ _ _ _ _ _ _ Hget Hitem).
  split; [reflexivity|]. now apply summary_lines.
Qed.

(** C9: the last line of the summary is the score line, "**" then the score
    in digit groups then "** points".  The groups are the decimal digits of
    the score's absolute value cut into groups of three from the right (only
    the leading group may have one or two digits), joined by commas, after a
    minus sign for a negative score; taking the commas out gives the decimal
    numeral of the score.  The score 12345 is rendered "12,345". *)
Theorem score_line_grouped (h : Host) (subreddit : string) (status : Z)
    (child : pyval) (rest : list pyval) (it : Item) (tr : trace) :
  get_answers h subreddit status (child :: rest) ->
  item_is child it ->
  exists message image_url first groups,
    fst (get_rising_submissions h subreddit tr)
      = Returned (Some (message, image_url)) /\
    last (lines message) EmptyString
      = "**" ++ format_grouped (it_score it) ++ "** points" /\
    format_grouped (it_score it)
      = int_sign (it_score it) ++ String.concat "," (first :: groups) /\
    String.concat EmptyString (first :: groups) = int_digits (it_score it) /\
    all_chars is_digit (int_digits (it_score it)) = true /\
    (1 <= String.length first <= 3)%nat /\
    Forall (fun g => String.length g = 3%nat) groups /\
    remove_char comma (format_grouped (it_score it))
      = py_str_int (it_score it) /\
    parse_int (py_str_int (it_score it)) = Some (it_score it) /\
    format_grouped 12345 = "12,345".
Proof.
  intros Hget Hitem.
  destruct (group_thousands_shape _ (int_digits_nonempty (it_score it)))
    as (first & groups & Hgroups & Hfirst & Hrest).
  exists (summary_of it), (PStr (it_url it)), first, groups.
  rewrite (fetch_first_item _ _ _ _ _ _ _ Hget Hitem).
  split; [reflexivity|].
  split; [apply summary_last_line|].
  split; [unfold format_grouped; now rewrite Hgroups|].
  split; [rewrite <- Hgroups; apply group_thousands_concat|].
  split; [apply int_digits_are_digits|].
  split; [exact Hfirst|].
  split; [exact Hrest|].
  split; [apply ungroup_format|].
  split; [apply parse_py_str_int | reflexivity].
Qed.

(** ** The theorems at concrete inputs *)

Lemma cute_cat_summary_witness :
  get_answers host_cat "pics" 200 [child_of cute_cat] /\
  item_is (child_of cute_cat) cute_cat /\
  fst (get_rising_submissions host_cat "pics" [])
  = Returned
      (Some ("[Cute cat](https://reddit.com/r/pics/comments/x/cute_cat/)" ++ LFs
             ++ "by **catlover**" ++ LFs
             ++ "**4,200** points",
             PStr "https://i.example/cat.jpg")).
Proof.
  assert (Hget : get_answers host_cat "pics" 200 [child_of cute_cat])
    by listing_shape.
  assert (Hitem : item_is (child_of cute_cat) cute_cat) by item_shape.
  split; [exact Hget|]. split; [exact Hitem|].
  exact (cute_cat_summary host_cat "pics" 200 _ [] Hget Hitem).
Defined.

(** C2: the code at the listing with no children.  The claim has the fetch
    fail there; [get_rising_submissions] instead returns [None], which is
    neither an exception nor the tuple its docstring promises, and the run
    only stops one step later, in [main], with the [TypeError] of unpacking
    [None]. *)
Theorem empty_listing_returns_none :
  get_answers host_empty "pics" 200 [] /\
  get_rising_submissions host_empty "pics" []
    = (Returned None, [EGet (rising_url "pics") request_headers]) /\
  ~ (exists e, fst (get_rising_submissions host_empty "pics" []) = Raised e) /\
  run host_empty
    = (Raised TypeError,
       [EPrint "Connecting to Reddit...";
        EGet (rising_url "pics") request_headers]).
Proof.
  split; [listing_shape|]. split; [reflexivity|]. split; [|reflexivity].
  intros [e He]. discriminate He.
Qed.

Lemma empty_listing_stops_in_main_witness :
  assoc "WEBHOOK" (environ host_empty) = Some "https://hooks.example/w" /\
  get_answers host_empty "pics" 200 [] /\
  run host_empty
    = (Raised TypeError,
       [EPrint "Connecting to Reddit...";
        EGet "https://www.reddit.com/r/pics/rising.json?limit=1"
             [("User-Agent", "Reddit Rising Checker v1.0")]]).
Proof.
  assert (Henv : assoc "WEBHOOK" (environ host_empty)
                 = Some "https://hooks.example/w") by reflexivity.
  assert (Hget : get_answers host_empty "pics" 200 []) by listing_shape.
  split; [exact Henv|]. split; [exact Hget|].
  exact (proj1 (proj2
           (empty_listing_stops_in_main host_empty _ 200 Henv Hget))).
Defined.



Lemma delivery_status_printed_witness :
  run host_rejected
    = (Returned tt,
       [EPrint "Connecting to Reddit...";
        EGet (rising_url "pics") request_headers;
        EPrint "Data received. Sending webhook...";
        EPost "https://hooks.example/w"
              (payload (PStr (summary_of cute_cat))
                       (PStr "https://i.example/cat.jpg"));
        EPrint "400"]) /\
  exit_code (fst (run host_rejected)) = 0 /\
  run host_cat
    = (Returned tt,
       [EPrint "Connecting to Reddit...";
        EGet (rising_url "pics") request_headers;
        EPrint "Data received. Sending webhook...";
        EPost "https://hooks.example/w"
              (payload (PStr (summary_of cute_cat))
                       (PStr "https://i.example/cat.jpg"));
        EPrint "204"]) /\
  exit_code (fst (run host_cat)) = 0.
Proof.
  pose proof (delivery_status_printed host_rejected "https://hooks.example/w"
                (summary_of cute_cat) (PStr "https://i.example/cat.jpg")
                {| status_code := 400; body_json := None |}
                [EPrint "Connecting to Reddit...";
                 EGet (rising_url "pics") request_headers]
                eq_refl eq_refl eq_refl) as (_ & Hrun400 & Hexit400).
  pose proof (delivery_status_printed host_cat "https://hooks.example/w"
                (summary_of cute_cat) (PStr "https://i.example/cat.jpg")
                {| status_code := 204; body_json := None |}
                [EPrint "Connecting to Reddit...";
                 EGet (rising_url "pics") request_headers]
                eq_refl eq_refl eq_refl) as (_ & Hrun204 & Hexit204).
  split; [exact Hrun400|]. split; [exact Hexit400|].
  split; [exact Hrun204 | exact Hexit204].
Defined.

Lemma missing_webhook_aborts_witness :
  assoc "WEBHOOK" (environ host_unconfigured) = None /\
  run host_unconfigured = (Raised (KeyError "WEBHOOK"), []).
Proof.
  split; [reflexivity|].
  exact (proj1 (missing_webhook_aborts host_unconfigured eq_refl)).
Defined.

Lemma summary_noninterference_witness :
  exists message,
    fst (get_rising_submissions host_cat "pics" [])
      = Returned (Some (message, PStr "https://i.example/cat.jpg")) /\
    fst (get_rising_submissions host_two_children "pics" [])
      = Returned (Some (message, PStr "https://i.example/other.gif")).
Proof.
  assert (Hget1 : get_answers host_cat "pics" 200 [child_of cute_cat])
    by listing_shape.
  assert (Hget2 : get_answers host_two_children "pics" 200
                    [child_of cute_cat_elsewhere; child_of abc_item])
    by listing_shape.
  assert (Hitem1 : item_is (child_of cute_cat) cute_cat) by item_shape.
  assert (Hitem2 : item_is (child_of cute_cat_elsewhere) cute_cat_elsewhere)
    by item_shape.
  destruct (summary_noninterference host_cat host_two_children "pics" 200 200
              _ _ _ _ _ _ [] [] Hget1 Hget2 Hitem1 Hitem2)
    as (m1 & u1 & m2 & u2 & H1 & H2 & Hu1 & Hu2 & Hsame & _).
  exists m1. rewrite H1, H2, Hu1, Hu2.
  rewrite (Hsame eq_refl eq_refl eq_refl eq_refl). split; reflexivity.
Defined.

Lemma permalink_is_origin_plus_path_witness :
  exists message image_url,
    fst (get_rising_submissions host_abc "pics" [])
      = Returned (Some (message, image_url)) /\
    hd EmptyString (lines message)
      = "[A title](https://reddit.com/r/pics/comments/abc123/title/)".
Proof.
  assert (Hget : get_answers host_abc "pics" 200 [child_of abc_item])
    by listing_shape.
  assert (Hitem : item_is (child_of abc_item) abc_item) by item_shape.
  destruct (permalink_is_origin_plus_path host_abc "pics" 200 _ _ _ []
              Hget Hitem)
    as (message & image_url & Hres & _ & Hline & _).
  exists message, image_url. split; [exact Hres|].
  exact (Hline eq_refl eq_refl).
Defined.

(** With a line feed in the permalink the summary has four lines, the title
    and the author holding none. *)
Lemma permalink_newline_four_lines :
  get_answers host_broken_path "pics" 200 [child_of broken_path_item] /\
  item_is (child_of broken_path_item) broken_path_item /\
  contains_char LF (it_title broken_path_item) = false /\
  contains_char LF (it_author broken_path_item) = false /\
  exists message image_url,
    fst (get_rising_submissions host_broken_path "pics" [])
      = Returned (Some (message, image_url)) /\
    lines message
      = ["[A title](https://reddit.com/r/pics/comments/abc123/";
         "title/)";
         "by **someone**";
         "**7** points"].
Proof.
  split; [listing_shape|]. split; [item_shape|].
  split; [reflexivity|]. split; [reflexivity|].
  eexists _, _. split; reflexivity.
Defined.

Lemma summary_three_lines_witness :
  exists message image_url,
    fst (get_rising_submissions host_cat "pics" [])
      = Returned (Some (message, image_url)) /\
    lines message
      = ["[Cute cat](https://reddit.com/r/pics/comments/x/cute_cat/)";
         "by **catlover**";
         "**4,200** points"].
Proof.
  assert (Hget : get_answers host_cat "pics" 200 [child_of cute_cat])
    by listing_shape.
  assert (Hitem : item_is (child_of cute_cat) cute_cat) by item_shape.
  exact (summary_three_lines host_cat "pics" 200 _ _ _ [] Hget Hitem
           eq_refl eq_refl eq_refl).
Defined.

Lemma score_line_grouped_witness :
  exists message image_url,
    fst (get_rising_submissions host_abc "pics" [])
      = Returned (Some (message, image_url)) /\
    last (lines message) EmptyString = "**12,345** points".
Proof.
  assert (Hget : get_answers host_abc "pics" 200 [child_of abc_item])
    by listing_shape.
  assert (Hitem : item_is (child_of abc_item) abc_item) by item_shape.
  destruct (score_line_grouped host_abc "pics" 200 _ _ _ [] Hget Hitem)
    as (message & image_url & _ & _ & Hres & Hlast & _).
  exists message, image_url. split; [exact Hres | exact Hlast].
Defined.

(** ** The loop and the events of the fetch *)

Lemma rising_item_pure (h : Host) (item : pyval) (tr : trace) :
  rising_item h item tr = (fst (rising_item h item []), tr).
Proof.
  unfold rising_item, bind, lift, ret.
  destruct (subscript item "data") as [item_data|e]; [|reflexivity].
  destruct (subscript item_data "title") as [title|e]; [|reflexivity].
  destruct (subscript item_data "permalink") as [path|e]; [|reflexivity].
  destruct (str_add "https://reddit.com" path) as [permalink|e]; [|reflexivity].
  destruct (subscript item_data "author") as [author|e]; [|reflexivity].
  destruct (subscript item_data "score") as [score|e]; [|reflexivity].
  destruct (subscript item_data "url") as [image_url|e]; [|reflexivity].
  destruct (format_comma h score) as [points|e]; reflexivity.
Qed.

Lemma rising_item_returns (h : Host) (item : pyval) :
  fst (rising_item h item []) <> Returned None.
Proof.
  unfold rising_item, bind, lift, ret.
  destruct (subscript item "data") as [item_data|e]; [|discriminate].
  destruct (subscript item_data "title") as [title|e]; [|discriminate].
  destruct (subscript item_data "permalink") as [path|e]; [|discriminate].
  destruct (str_add "https://reddit.com" path) as [permalink|e];
    [|discriminate].
  destruct (subscript item_data "author") as [author|e]; [|discriminate].
  destruct (subscript item_data "score") as [score|e]; [|discriminate].
  destruct (subscript item_data "url") as [image_url|e]; [|discriminate].
  destruct (format_comma h score) as [points|e]; discriminate.
Qed.

Lemma for_loop_first (h : Host) (child : pyval) (rest : list pyval)
    (tr : trace) :
  for_loop (child :: rest) (rising_item h) tr
  = (fst (rising_item h child []), tr).
Proof.
  cbn [for_loop]. unfold bind. rewrite rising_item_pure.
  pose proof (rising_item_returns h child) as Hsome.
  destruct (fst (rising_item h child [])) as [[r|]|e];
    [reflexivity | congruence | reflexivity].
Qed.

Lemma for_loop_pure (h : Host) (values : list pyval) (tr : trace) :
  for_loop values (rising_item h) tr
  = (fst (for_loop values (rising_item h) []), tr).
Proof.
  destruct values as [|child rest]; [reflexivity|].
  now rewrite !for_loop_first.
Qed.

Lemma fetch_pure (h : Host) (subreddit : string) (tr : trace) :
  get_rising_submissions h subreddit tr
  = (fst (get_rising_submissions h subreddit []),
     (tr ++ [EGet (rising_url subreddit) request_headers])%list).
Proof.
  unfold get_rising_submissions, requests_get, bind, emit, lift, ret.
  fold (rising_url subreddit). fold request_headers.
  destruct (http_get h _ _) as [r|]; [|reflexivity].
  destruct (response_json r) as [body|e]; [|reflexivity].
  destruct (subscript body "data") as [listing|e]; [|reflexivity].
  destruct (subscript listing "children") as [data|e]; [|reflexivity].
  destruct (py_iter data) as [values|e]; [|reflexivity].
  rewrite for_loop_pure. rewrite (for_loop_pure h values ([] ++ _)%list).
  reflexivity.
Qed.

Lemma fetch_first_child (h : Host) (subreddit : string) (status : Z)
    (child : pyval) (rest : list pyval) (tr : trace) :
  get_answers h subreddit status (child :: rest) ->
  get_rising_submissions h subreddit tr
  = (fst (rising_item h child []),
     (tr ++ [EGet (rising_url subreddit) request_headers])%list).
Proof.
  intros Hget. rewrite (fetch_listing _ _ _ _ _ Hget). apply for_loop_first.
Qed.

Lemma run_after_fetch (h : Host) (url : string) :
  assoc "WEBHOOK" (environ h) = Some url ->
  run h
  = match fst (get_rising_submissions h "pics" []) with
    | Returned (Some (message, image_url)) =>
        post_message h url (PStr message) image_url
          [progress_fetch; the_get; progress_send]
    | Returned None => (Raised TypeError, [progress_fetch; the_get])
    | Raised e => (Raised e, [progress_fetch; the_get])
    end.
Proof.
  intros Henv. rewrite (run_unfold _ _ Henv), main_unfold, fetch_pure.
  destruct (fst (get_rising_submissions h "pics" [])) as [[[m u]|]|e];
    reflexivity.
Qed.

(** X1: whatever the host answers, [get_rising_submissions] performs exactly
    one event, the GET of the subreddit's rising listing with the User-Agent
    header: it prints nothing, posts nothing and asks once however many
    children come back; and what it returns or raises does not depend on
    the events before it. *)
Theorem fetch_issues_one_get (h : Host) (subreddit : string) (tr : trace) :
  snd (get_rising_submissions h subreddit tr)
  = (tr ++ [EGet ("https://www.reddit.com/r/" ++ subreddit
                  ++ "/rising.json?limit=1")
                 [("User-Agent", "Reddit Rising Checker v1.0")]])%list /\
  fst (get_rising_submissions h subreddit tr)
  = fst (get_rising_submissions h subreddit []).
Proof.
  rewrite fetch_pure. split; reflexivity.
Qed.

(** X2: the events of a run, for every host, by what the host does.
    Without WEBHOOK nothing happens.  Otherwise the run prints the first
    progress line and issues the GET, and stops there with the exception of
    the fetch when the fetch raises, or with [TypeError] when it returns
    [None].  Only when the fetch returns a pair does the run print the second
    progress line and POST the payload of that pair to the configured
    address; it stops there when the POST gets no response, and prints the
    status of the response and ends normally when it gets one.  So there is
    at most one GET and one POST, no POST without a pair fetched before it,
    and no normal end without a status printed. *)
Theorem run_event_order (h : Host) :
  (assoc "WEBHOOK" (environ h) = None /\
   run h = (Raised (KeyError "WEBHOOK"), [])) \/
  exists url,
    assoc "WEBHOOK" (environ h) = Some url /\
    ((exists e,
        fst (get_rising_submissions h "pics" []) = Raised e /\
        run h = (Raised e, [progress_fetch; the_get])) \/
     (fst (get_rising_submissions h "pics" []) = Returned None /\
      run h = (Raised TypeError, [progress_fetch; the_get])) \/
     (exists m u,
        fst (get_rising_submissions h "pics" []) = Returned (Some (m, u)) /\
        http_post h url (payload (PStr m) u) = None /\
        run h = (Raised RequestException,
                 [progress_fetch; the_get; progress_send;
                  EPost url (payload (PStr m) u)])) \/
     (exists m u r,
        fst (get_rising_submissions h "pics" []) = Returned (Some (m, u)) /\
        http_post h url (payload (PStr m) u) = Some r /\
        run h = (Returned tt,
                 [progress_fetch; the_get; progress_send;
                  EPost url (payload (PStr m) u);
                  EPrint (py_str_int (status_code r))]))).
Proof.
  destruct (assoc "WEBHOOK" (environ h)) as [url|] eqn:Henv.
  - right. exists url. split; [reflexivity|].
    rewrite (run_after_fetch _ _ Henv).
    destruct (fst (get_rising_submissions h "pics" [])) as [[[m u]|]|e].
    + do 2 right.
      unfold post_message, requests_post, print, bind, emit, ret.
      destruct (http_post h url (payload (PStr m) u)) as [r|] eqn:Hpost.
      * right. exists m, u, r. now rewrite Hpost.
      * left. exists m, u. now rewrite Hpost.
    + right. left. now split.
    + left. now exists e.
  - left. split; [reflexivity|].
    unfold run, script, bind, lift. now rewrite Henv.
Qed.

(** X3: when the GET gets no response, [get_rising_submissions] raises the
    request's exception right after the GET, and the run ends with it: only
    the first progress line was printed and no POST is issued. *)
Theorem get_without_reply (h : Host) (url : string) :
  assoc "WEBHOOK" (environ h) = Some url ->
  http_get h (rising_url "pics") request_headers = None ->
  (forall tr,
     get_rising_submissions h "pics" tr
     = (Raised RequestException, (tr ++ [the_get])%list)) /\
  run h = (Raised RequestException, [progress_fetch; the_get]) /\
  exit_code (fst (run h)) = 1.
Proof.
  intros Henv Hget.
  assert (Hfetch : forall tr,
             get_rising_submissions h "pics" tr
             = (Raised RequestException, (tr ++ [the_get])%list)).
  { intros tr.
    unfold get_rising_submissions, requests_get, bind, emit, lift, raise.
    fold (rising_url "pics"). fold request_headers. now rewrite Hget. }
  assert (Hrun : run h = (Raised RequestException, [progress_fetch; the_get])).
  { rewrite (run_after_fetch _ _ Henv). now rewrite Hfetch. }
  split; [exact Hfetch|]. split; [exact Hrun|]. now rewrite Hrun.
Qed.

(** X4: when the POST gets no response, [post_message] raises after the POST
    without printing anything, and a run that got that far ends with the
    exception and a non-zero status: no status line is printed. *)
Theorem post_without_reply (h : Host) (url message : string)
    (image_url : pyval) :
  assoc "WEBHOOK" (environ h) = Some url ->
  fst (get_rising_submissions h "pics" [])
    = Returned (Some (message, image_url)) ->
  http_post h url (payload (PStr message) image_url) = None ->
  (forall tr,
     post_message h url (PStr message) image_url tr
     = (Raised RequestException,
        (tr ++ [EPost url (payload (PStr message) image_url)])%list)) /\
  run h = (Raised RequestException,
           [progress_fetch; the_get; progress_send;
            EPost url (payload (PStr message) image_url)]) /\
  exit_code (fst (run h)) = 1.
Proof.
  intros Henv Hfetch Hpost.
  assert (Hmsg : forall tr,
             post_message h url (PStr message) image_url tr
             = (Raised RequestException,
                (tr ++ [EPost url (payload (PStr message) image_url)])%list)).
  { intros tr. unfold post_message, requests_post, print, bind, emit, raise.
    now rewrite Hpost. }
  assert (Hrun : run h = (Raised RequestException,
                          [progress_fetch; the_get; progress_send;
                           EPost url (payload (PStr message) image_url)])).
  { rewrite (run_after_fetch _ _ Henv), Hfetch. apply Hmsg. }
  split; [exact Hmsg|]. split; [exact Hrun|]. now rewrite Hrun.
Qed.

(** X5: on a listing with at least one child the loop body runs on the first
    child only: [get_rising_submissions] returns or raises what the body
    does there, whatever the later children are, and never returns [None].
    A first child that makes the body raise fails the fetch even when a
    well-formed child follows. *)
Theorem first_child_decides (h : Host) (subreddit : string) (status : Z)
    (child : pyval) (rest : list pyval) (tr : trace) :
  get_answers h subreddit status (child :: rest) ->
  fst (get_rising_submissions h subreddit tr) = fst (rising_item h child []) /\
  fst (get_rising_submissions h subreddit tr) <> Returned None.
Proof.
  intros Hget. rewrite (fetch_first_child _ _ _ _ _ _ Hget).
  split; [reflexivity | apply rising_item_returns].
Qed.

(** X6: an exception raised by the fetch is the exception the run ends
    with; the run has then printed the first progress line and issued the
    GET, and nothing else: no second progress line and no POST. *)
Theorem fetch_failure_propagates (h : Host) (url : string) (e : exn) :
  assoc "WEBHOOK" (environ h) = Some url ->
  fst (get_rising_submissions h "pics" []) = Raised e ->
  run h = (Raised e, [progress_fetch; the_get]) /\
  has_post (snd (run h)) = false /\
  exit_code (fst (run h)) = 1.
Proof.
  intros Henv Hfetch.
  assert (Hrun : run h = (Raised e, [progress_fetch; the_get])).
  { rewrite (run_after_fetch _ _ Henv). now rewrite Hfetch. }
  rewrite Hrun. repeat split.
Qed.

(** ** Items as the loop body takes them *)




(** X8: when the [data] object of the first child lacks one of the five
    keys the loop body reads, the fetch produces no summary.  It raises the
    [KeyError] of the first missing key, in the order title, permalink,
    author, score, url; except that a permalink that is there but is not a
    string is met before a missing author, score or url, and then the fetch
    raises the [TypeError] of the concatenation. *)
Theorem missing_field_raises (h : Host) (subreddit : string) (status : Z)
    (child : pyval) (rest : list pyval) (members : list (string * pyval))
    (key : string) (tr : trace) :
  get_answers h subreddit status (child :: rest) ->
  subscript child "data" = Returned (PDict members) ->
  first_missing members = Some key ->
  ((key = "title" \/ key = "permalink" \/
    exists p, assoc "permalink" members = Some (PStr p)) ->
   fst (get_rising_submissions h subreddit tr) = Raised (KeyError key)) /\
  (forall v,
     key <> "title" -> key <> "permalink" ->
     assoc "permalink" members = Some v ->
     (forall p, v <> PStr p) ->
     fst (get_rising_submissions h subreddit tr) = Raised TypeError).
Proof.
  intros Hget Hdata Hfirst.
  rewrite (fetch_first_child _ _ _ _ _ _ Hget). cbn [fst].
  unfold rising_item, bind, lift, ret. rewrite Hdata.
  cbn [subscript fst].
  unfold first_missing, required_keys in Hfirst. cbn [find] in Hfirst.
  destruct (assoc "title" members) as [title|] eqn:Ht.
  2:{ injection Hfirst as <-.
      split; [reflexivity | intros v Hkey; now destruct Hkey]. }
  destruct (assoc "permalink" members) as [path|] eqn:Hp.
  2:{ injection Hfirst as <-.
      split; [reflexivity | intros v _ Hkey; now destruct Hkey]. }
  assert (Hlater : key = "author" \/ key = "score" \/ key = "url").
  { destruct (assoc "author" members); destruct (assoc "score" members);
      destruct (assoc "url" members); try discriminate Hfirst;
      injection Hfirst as <-; auto. }
  split.
  - intros [Hkey|[Hkey|[p Hpath]]].
    + destruct Hlater as [-> | [-> | ->]]; discriminate Hkey.
    + destruct Hlater as [-> | [-> | ->]]; discriminate Hkey.
    + injection Hpath as ->. cbn [str_add].
      destruct (assoc "author" members); [|now injection Hfirst as <-].
      destruct (assoc "score" members); [|now injection Hfirst as <-].
      destruct (assoc "url" members); [|now injection Hfirst as <-].
      discriminate Hfirst.
  - intros v _ _ Hv Hnot. injection Hv as <-.
    destruct path; try reflexivity. now destruct (Hnot s).
Qed.

(** X9: with the five keys present, a permalink that is not a string makes
    the fetch raise [TypeError] (from the concatenation with the origin), a
    score that is a string makes it raise [ValueError], and a score that is
    [null], an array or an object makes it raise [TypeError] (both from the
    [','] format); no summary is produced. *)
Theorem ill_typed_fields_raise (h : Host) (subreddit : string) (status : Z)
    (child : pyval) (rest : list pyval) (title path author score url : pyval)
    (tr : trace) :
  get_answers h subreddit status (child :: rest) ->
  item_has child title path author score url ->
  ((forall p, path <> PStr p) ->
   fst (get_rising_submissions h subreddit tr) = Raised TypeError) /\
  (forall p text,
     path = PStr p -> score = PStr text ->
     fst (get_rising_submissions h subreddit tr) = Raised ValueError) /\
  (forall p,
     path = PStr p ->
     score = PNone \/ (exists l, score = PList l)
     \/ (exists d, score = PDict d) ->
     fst (get_rising_submissions h subreddit tr) = Raised TypeError).
Proof.
  intros Hget (item_data & Hd & Ht & Hp & Ha & Hs & Hu).
  rewrite (fetch_first_child _ _ _ _ _ _ Hget). cbn [fst].
  unfold rising_item, bind, lift, ret. rewrite Hd, Ht, Hp.
  split; [|split].
  - intros Hpath. destruct path; try reflexivity. now destruct (Hpath s).
  - intros p text -> ->. cbn [str_add]. now rewrite Ha, Hs, Hu.
  - intros p -> Hscore. cbn [str_add]. rewrite Ha, Hs, Hu.
    destruct Hscore as [->|[[l ->]|[d ->]]]; reflexivity.
Qed.

Lemma utf8_chars_nonempty (a : ascii) (s : string) :
  exists ch chs, utf8_chars (String a s) = ch :: chs.
Proof.
  cbn [utf8_chars]. destruct (utf8_chars s) as [|ch chs].
  - now eexists _, _.
  - destruct (starts_with_continuation s); now eexists _, _.
Qed.

(** X10: when [data.children] of the body is not an array the fetch never
    returns a pair.  On the empty object and on the empty string the loop
    has nothing to visit and the fetch returns [None].  On every other value
    it raises [TypeError]: a number, a boolean or [null] cannot be iterated,
    and a non-empty object or string is iterated to strings, which have no
    ["data"] member. *)
Theorem children_not_a_list (h : Host) (subreddit : string) (status : Z)
    (body listing data : pyval) (tr : trace) :
  http_get h (rising_url subreddit) request_headers
    = Some {| status_code := status; body_json := Some body |} ->
  subscript body "data" = Returned listing ->
  subscript listing "children" = Returned data ->
  is_list data = false ->
  (data = PDict [] \/ data = PStr EmptyString ->
   fst (get_rising_submissions h subreddit tr) = Returned None) /\
  (data <> PDict [] -> data <> PStr EmptyString ->
   fst (get_rising_submissions h subreddit tr) = Raised TypeError).
Proof.
  intros Hget Hdata Hchildren Hlist.
  unfold get_rising_submissions, requests_get, bind, emit, lift, ret.
  fold (rising_url subreddit). fold request_headers.
  rewrite Hget. unfold response_json. cbn [body_json].
  rewrite Hdata, Hchildren.
  split.
  - intros [-> | ->]; reflexivity.
  - intros Hobject Htext.
    destruct data as [| b | z | lit | s | elems | items]; try reflexivity.
    + destruct s as [|a s]; [now destruct Htext|].
      cbn [py_iter].
      destruct (utf8_chars_nonempty a s) as (ch & chs & ->).
      cbn [map]. now rewrite for_loop_first.
    + discriminate Hlist.
    + destruct items as [|[k v] items]; [now destruct Hobject|].
      cbn [py_iter map]. now rewrite for_loop_first.
Qed.

(** ** Counting lines *)

Lemma count_char_app (c : ascii) (a b : string) :
  count_char c (a ++ b) = (count_char c a + count_char c b)%nat.
Proof.
  induction a as [|x a IH]; simpl; [reflexivity|]. rewrite IH. lia.
Qed.

Lemma count_char_absent (c : ascii) (s : string) :
  contains_char c s = false -> count_char c s = 0%nat.
Proof.
  induction s as [|x s IH]; simpl; [reflexivity|].
  intros H. apply orb_false_iff in H. destruct H as [Hx Hs].
  now rewrite Hx, (IH Hs).
Qed.

Lemma length_split_on (sep : ascii) (s : string) :
  List.length (split_on sep s) = S (count_char sep s).
Proof.
  induction s as [|x s IH]; simpl; [reflexivity|].
  destruct (Ascii.eqb x sep); simpl; [now rewrite IH|].
  destruct (split_on sep s) as [|piece pieces]; [discriminate IH|].
  exact IH.
Qed.

Lemma count_lf_summary (it : Item) :
  count_char LF (summary_of it)
  = (2 + count_char LF (it_title it) + count_char LF (it_permalink it)
     + count_char LF (it_author it))%nat.
Proof.
  unfold summary_of, link_line, author_line, score_line.
  rewrite !count_char_app.
  rewrite (count_char_absent LF (format_grouped (it_score it)))
    by apply format_grouped_one_line.
  cbn [count_char LFs]. cbn. lia.
Qed.

(** X11: on a well-formed first item the summary has three lines and one
    more for every line feed in the title, the permalink and the author: the
    message itself contributes two line feeds and the rendered score
    none. *)
Theorem summary_line_count (h : Host) (subreddit : string) (status : Z)
    (child : pyval) (rest : list pyval) (it : Item) (tr : trace) :
  get_answers h subreddit status (child :: rest) ->
  item_is child it ->
  exists message image_url,
    fst (get_rising_submissions h subreddit tr)
      = Returned (Some (message, image_url)) /\
    List.length (lines message)
      = (3 + count_char LF (it_title it) + count_char LF (it_permalink it)
         + count_char LF (it_author it))%nat.
Proof.
  intros Hget Hitem.
  exists (summary_of it), (PStr (it_url it)).
  rewrite (fetch_first_item _ _ _ _ _ _ _ Hget Hitem).
  split; [reflexivity|].
  unfold lines. rewrite length_split_on, count_lf_summary. lia.
Qed.

(** ** Reading the score back *)

Lemma length_append (a b : string) :
  String.length (a ++ b) = (String.length a + String.length b)%nat.
Proof.
  induction a as [|x a IH]; simpl; [reflexivity | now rewrite IH].
Qed.

Lemma append_cancel_r (a b c : string) : a ++ c = b ++ c -> a = b.
Proof.
  revert b. induction a as [|x a IH]; intros [|y b] H.
  - reflexivity.
  - apply (f_equal String.length) in H. rewrite !length_append in H.
    cbn [String.length] in H. lia.
  - apply (f_equal String.length) in H. rewrite !length_append in H.
    cbn [String.length] in H. lia.
  - cbn in H. injection H as Hxy Hab. subst y. f_equal. now apply IH.
Qed.

Lemma format_grouped_injective (z1 z2 : Z) :
  format_grouped z1 = format_grouped z2 -> z1 = z2.
Proof.
  intros H. apply (f_equal (remove_char comma)) in H.
  rewrite !ungroup_format in H.
  apply (f_equal parse_int) in H. rewrite !parse_py_str_int in H.
  now injection H.
Qed.

(** X12: the score line determines the score: two items whose score lines
    are equal have equal scores, so the grouping never maps two scores to
    one text (the sign is kept and the groups can be read back). *)
Theorem score_line_determines_score (it1 it2 : Item) :
  score_line it1 = score_line it2 -> it_score it1 = it_score it2.
Proof.
  unfold score_line. intros H.
  cbn [append] in H. injection H as H.
  apply append_cancel_r in H. now apply format_grouped_injective.
Qed.

(** ** The further theorems at concrete inputs *)

Lemma get_without_reply_witness :
  run host_no_reply = (Raised RequestException, [progress_fetch; the_get]).
Proof.
  exact (proj1 (proj2 (get_without_reply host_no_reply
                         "https://hooks.example/w" eq_refl eq_refl))).
Defined.

Lemma post_without_reply_witness :
  run host_webhook_down
  = (Raised RequestException,
     [progress_fetch; the_get; progress_send;
      EPost "https://hooks.example/w"
            (payload (PStr (summary_of cute_cat))
                     (PStr "https://i.example/cat.jpg"))]).
Proof.
  exact (proj1 (proj2 (post_without_reply host_webhook_down
                         "https://hooks.example/w" (summary_of cute_cat)
                         (PStr "https://i.example/cat.jpg")
                         eq_refl eq_refl eq_refl))).
Defined.

Lemma first_child_decides_witness :
  get_answers host_bad_first "pics" 200 [PNone; child_of cute_cat] /\
  fst (get_rising_submissions host_bad_first "pics" []) = Raised TypeError.
Proof.
  assert (Hget : get_answers host_bad_first "pics" 200
                   [PNone; child_of cute_cat]) by listing_shape.
  split; [exact Hget|].
  exact (proj1 (first_child_decides host_bad_first "pics" 200 _ _ [] Hget)).
Defined.

Lemma fetch_failure_propagates_witness :
  run host_text_score = (Raised ValueError, [progress_fetch; the_get]).
Proof.
  exact (proj1 (fetch_failure_propagates host_text_score
                  "https://hooks.example/w" ValueError eq_refl eq_refl)).
Defined.


Lemma missing_field_raises_witness :
  fst (get_rising_submissions host_no_score "pics" [])
    = Raised (KeyError "score") /\
  fst (get_rising_submissions host_numeric_path "pics" []) = Raised TypeError.
Proof.
  assert (Hget1 : get_answers host_no_score "pics" 200
                    [PDict [("data", PDict no_score_members)]])
    by listing_shape.
  assert (Hget2 : get_answers host_numeric_path "pics" 200
                    [PDict [("data", PDict numeric_path_members)]])
    by listing_shape.
  split.
  - apply (proj1 (missing_field_raises host_no_score "pics" 200 _ _
                    no_score_members "score" [] Hget1 eq_refl eq_refl)).
    right. right. now eexists.
  - apply (proj2 (missing_field_raises host_numeric_path "pics" 200 _ _
                    numeric_path_members "score" [] Hget2 eq_refl eq_refl)
             (PInt 7)); try discriminate. reflexivity.
Defined.

Lemma ill_typed_fields_raise_witness :
  fst (get_rising_submissions host_text_score "pics" []) = Raised ValueError.
Proof.
  assert (Hget : get_answers host_text_score "pics" 200 [text_score_child])
    by listing_shape.
  assert (Hitem : item_has text_score_child (PStr "Cute cat")
                    (PStr "/r/pics/comments/x/cute_cat/") (PStr "catlover")
                    (PStr "4200") (PStr "https://i.example/cat.jpg"))
    by item_shape.
  exact (proj1 (proj2 (ill_typed_fields_raise host_text_score "pics" 200
                         _ _ _ _ _ _ _ [] Hget Hitem))
           _ _ eq_refl eq_refl).
Defined.

Lemma children_not_a_list_witness :
  fst (get_rising_submissions host_children_object "pics" [])
    = Raised TypeError /\
  fst (get_rising_submissions host_children_empty_object "pics" [])
    = Returned None.
Proof.
  split.
  - apply (proj2 (children_not_a_list host_children_object "pics" 200 _ _ _ []
                    eq_refl eq_refl eq_refl eq_refl)); discriminate.
  - apply (proj1 (children_not_a_list host_children_empty_object "pics" 200
                    _ _ _ [] eq_refl eq_refl eq_refl eq_refl)).
    now left.
Defined.

Lemma summary_line_count_witness :
  exists message image_url,
    fst (get_rising_submissions host_two_line_title "pics" [])
      = Returned (Some (message, image_url)) /\
    List.length (lines message) = 4%nat.
Proof.
  assert (Hget : get_answers host_two_line_title "pics" 200
                   [child_of two_line_title_item]) by listing_shape.
  assert (Hitem : item_is (child_of two_line_title_item) two_line_title_item)
    by item_shape.
  exact (summary_line_count host_two_line_title "pics" 200 _ _ _ []
           Hget Hitem).
Defined.

Lemma score_line_determines_score_witness :
  it_score cute_cat = it_score cute_cat_elsewhere.
Proof.
  exact (score_line_determines_score cute_cat cute_cat_elsewhere eq_refl).
Defined.
